(** * Configuration shapes of the auth construct

    The two source files contain no executable statement: [types.ts]
    declares the configuration shapes accepted by the auth construct and
    the second file re-exports two submodules.  The development therefore
    embeds

    - the values a configuration is built from (booleans, strings,
      message-template functions, arrays, object literals);
    - the type expressions of [types.ts], declaration by declaration;
    - the check the TypeScript compiler applies when an object literal is
      given where one of these types is expected ([accepts]);
    - the statements of both files ([types_ts], [part_000]). *)

From Stdlib Require Import String Ascii List Bool Arith Lia.
Import ListNotations.
Open Scope string_scope.

Set Warnings "-register-all".

(** ** Values *)

(** A configuration value.  Message templates such as
    [(code: string) => string] are functions on strings; [VRef n] is an
    instance of the imported class or enum [n] (a [SecretValue], an
    [OAuthScope], ...), whose inside is not visible from this file. *)
Inductive value : Type :=
| VUndefined
| VBool (b : bool)
| VStr (s : string)
| VFun (f : string -> string)
| VArr (xs : list value)
| VObj (props : list (string * value))
| VRef (n : string).

(** Property lookup in an object literal. *)
Fixpoint lookup (k : string) (o : list (string * value)) : option value :=
  match o with
  | [] => None
  | (k', v) :: r => if String.eqb k' k then Some v else lookup k r
  end.

(** The literal without its property [k]. *)
Definition remove_prop (k : string) (o : list (string * value))
  : list (string * value) :=
  filter (fun p => negb (String.eqb (fst p) k)) o.

(** [k] is supplied: present and not [undefined]. *)
Definition supplied (k : string) (o : list (string * value)) : bool :=
  match lookup k o with
  | None | Some VUndefined => false
  | Some _ => true
  end.

(** ** Type expressions *)

(** The type expressions that occur in [types.ts].  [TRef n] names a type
    declared outside the file (imported from [aws-cdk-lib], from an
    [@aws-amplify] package or from [./trigger_events.js]); [TOmit t ks] is
    [Omit<t, ks>]. *)
Inductive ty : Type :=
| TBoolean
| TTrue
| TString
| TLit (s : string)
| TFun
| TArray (t : ty)
| TObj (fs : list field)
| TUnion (a b : ty)
| TInter (a b : ty)
| TOmit (t : ty) (ks : list string)
| TRef (n : string)
with field : Type :=
| Field (name : string) (optional : bool) (t : ty).

(** [k: t] and [k?: t]. *)
Definition req (k : string) (t : ty) : field := Field k false t.
Definition opt (k : string) (t : ty) : field := Field k true t.

Definition fname (f : field) : string :=
  match f with Field k _ _ => k end.
Definition foptional (f : field) : bool :=
  match f with Field _ o _ => o end.
Definition ftype (f : field) : ty :=
  match f with Field _ _ t => t end.

Definition mem (k : string) (ks : list string) : bool :=
  existsb (String.eqb k) ks.

(** ** The declarations of [types.ts] *)

Module Types.

(** [EmailLoginSettings], lines 10-30. *)
Definition EmailLoginSettings : ty :=
  TObj [ opt "verificationEmailStyle" (TUnion (TLit "CODE") (TLit "LINK"));
         opt "verificationEmailBody" TFun;
         opt "verificationEmailSubject" TString ].

(** [EmailLogin = true | EmailLoginSettings], line 37. *)
Definition EmailLogin : ty := TUnion TTrue EmailLoginSettings.

(** [PhoneNumberLogin], lines 44-54. *)
Definition PhoneNumberLogin : ty :=
  TUnion TTrue (TObj [ opt "verificationMessage" TFun ]).

(** [BasicLoginOptions], lines 59-61. *)
Definition BasicLoginOptions : ty :=
  TUnion (TObj [ req "email" EmailLogin; opt "phone" PhoneNumberLogin ])
         (TObj [ opt "email" EmailLogin; req "phone" PhoneNumberLogin ]).

(** [MFASettings], lines 66-87. *)
Definition MFASettings : ty :=
  TObj [ req "totp" TBoolean;
         req "sms" (TUnion TBoolean (TObj [ req "smsMessage" TFun ])) ].

(** [MFA], lines 91-97. *)
Definition MFA : ty :=
  TInter
    (TObj [ req "enforcementType"
              (TUnion (TLit "OFF") (TUnion (TLit "OPTIONAL") (TLit "REQUIRED"))) ])
    MFASettings.

(** [GoogleProviderProps], lines 102-112. *)
Definition GoogleProviderProps : ty :=
  TInter
    (TOmit (TRef "cognito.UserPoolIdentityProviderGoogleProps")
           [ "userPool"; "clientSecretValue"; "clientSecret" ])
    (TObj [ opt "clientSecret" (TRef "SecretValue") ]).

(** [AppleProviderProps], lines 117-120. *)
Definition AppleProviderProps : ty :=
  TOmit (TRef "cognito.UserPoolIdentityProviderAppleProps") [ "userPool" ].

(** [AmazonProviderProps], lines 125-128. *)
Definition AmazonProviderProps : ty :=
  TOmit (TRef "cognito.UserPoolIdentityProviderAmazonProps") [ "userPool" ].

(** [FacebookProviderProps], lines 133-136. *)
Definition FacebookProviderProps : ty :=
  TOmit (TRef "cognito.UserPoolIdentityProviderFacebookProps") [ "userPool" ].

(** [OidcProviderProps], lines 141-144. *)
Definition OidcProviderProps : ty :=
  TOmit (TRef "cognito.UserPoolIdentityProviderOidcProps") [ "userPool" ].

(** [SamlProviderProps], lines 149-152. *)
Definition SamlProviderProps : ty :=
  TOmit (TRef "cognito.UserPoolIdentityProviderSamlProps") [ "userPool" ].

(** [ExternalProviderOptions], lines 157-168. *)
Definition ExternalProviderOptions : ty :=
  TObj [ opt "google" GoogleProviderProps;
         opt "facebook" FacebookProviderProps;
         opt "loginWithAmazon" AmazonProviderProps;
         opt "signInWithApple" AppleProviderProps;
         opt "oidc" OidcProviderProps;
         opt "saml" SamlProviderProps;
         (* general configuration *)
         opt "scopes" (TArray (TRef "cognito.OAuthScope"));
         opt "callbackUrls" (TArray TString);
         opt "logoutUrls" (TArray TString) ].

(** [ExternalProviderProps], lines 173-175. *)
Definition ExternalProviderProps : ty :=
  TObj [ opt "externalProviders" ExternalProviderOptions ].

(** [TriggerEvent = (typeof triggerEvents)[number]], line 180: the element
    type of a tuple declared in [./trigger_events.js]. *)
Definition TriggerEvent : ty := TRef "(typeof triggerEvents)[number]".

(** [AuthProps], lines 185-209. *)
Definition AuthProps : ty :=
  TObj [ req "loginWith" (TInter BasicLoginOptions ExternalProviderProps);
         opt "userAttributes" (TRef "StandardAttributes");
         opt "multifactor" MFA;
         opt "accountRecovery" (TRef "cognito.AccountRecovery");
         opt "outputStorageStrategy"
             (TRef "BackendOutputStorageStrategy<AuthOutput>") ].

End Types.

(** ** Imported types *)

(** The types that [types.ts] imports are declared in other packages.  The
    development reads them through an environment that gives the meaning
    of each imported name, itself free of imported names and of [Omit];
    all results below hold for every environment.  A class or an enum
    whose inside does not matter is mapped to itself ([opaque_imports]
    does so for every name) and then has the instances [VRef n]. *)
Definition imports : Type := string -> ty.

Definition opaque_imports : imports := TRef.

(** [Omit<t, ks>] on an object type drops the properties named in [ks] and
    keeps the others with their [?] modifier.  On anything else it stays
    unevaluated. *)
Definition omit (ks : list string) (t : ty) : ty :=
  match t with
  | TObj fs => TObj (filter (fun f => negb (mem (fname f) ks)) fs)
  | _ => TOmit t ks
  end.

(** Replace the imported names by their meaning and evaluate [Omit]. *)
Fixpoint expand (env : imports) (t : ty) : ty :=
  match t with
  | TArray t' => TArray (expand env t')
  | TObj fs =>
      TObj (map (fun f => match f with
                          | Field k o t' => Field k o (expand env t')
                          end) fs)
  | TUnion a b => TUnion (expand env a) (expand env b)
  | TInter a b => TInter (expand env a) (expand env b)
  | TOmit t' ks => omit ks (expand env t')
  | TRef n => env n
  | _ => t
  end.

(** [expand] on one property declaration: the name and the [?] modifier
    stay, the type is expanded. *)
Definition expand_field (env : imports) (f : field) : field :=
  Field (fname f) (foptional f) (expand env (ftype f)).

(** ** Checking an object literal against a type *)

(** The property names a type knows: those of an object type, and those of
    any member of a union or an intersection. *)
Fixpoint keys (t : ty) : list string :=
  match t with
  | TObj fs => map fname fs
  | TUnion a b | TInter a b => keys a ++ keys b
  | _ => []
  end.

(** A property whose value is looked up as [x]: absent or [undefined] is
    fine exactly when the property is declared with [?] (strict null
    checks: [undefined] inhabits none of the types above); any other value
    is checked by [chk]. *)
Definition prop_ok (chk : value -> bool) (optional : bool) (x : option value)
  : bool :=
  match x with
  | None | Some VUndefined => optional
  | Some v => chk v
  end.

(** Excess property check: every property of the literal is among the
    known names. *)
Definition no_excess (known : list string) (o : list (string * value)) : bool :=
  forallb (fun p => mem (fst p) known) o.

(** [conf al t v]: the literal [v] is accepted where [t] is expected.  A
    union or an intersection knows the properties of all its members, so
    [al] carries the names known to the sibling members down to each
    object type.  An unevaluated [Omit] accepts nothing. *)
Fixpoint conf (al : list string) (t : ty) (v : value) {struct t} : bool :=
  match t with
  | TBoolean => match v with VBool _ => true | _ => false end
  | TTrue => match v with VBool true => true | _ => false end
  | TString => match v with VStr _ => true | _ => false end
  | TLit s => match v with VStr s' => String.eqb s' s | _ => false end
  | TFun => match v with VFun _ => true | _ => false end
  | TArray t' =>
      match v with VArr xs => forallb (conf [] t') xs | _ => false end
  | TObj fs =>
      match v with
      | VObj o =>
          forallb (fun f =>
                     match f with
                     | Field k optional t' =>
                         prop_ok (conf [] t') optional (lookup k o)
                     end) fs
          && no_excess (map fname fs ++ al) o
      | _ => false
      end
  | TUnion a b => conf (al ++ keys b) a v || conf (al ++ keys a) b v
  | TInter a b => conf (al ++ keys b) a v && conf (al ++ keys a) b v
  | TOmit _ _ => false
  | TRef n => match v with VRef n' => String.eqb n' n | _ => false end
  end.

(** The check of one declared property against the literal [o]. *)
Definition field_ok (o : list (string * value)) (f : field) : bool :=
  prop_ok (conf [] (ftype f)) (foptional f) (lookup (fname f) o).

(** A configuration literal [v] is accepted at type [t]. *)
Definition accepts (env : imports) (t : ty) (v : value) : bool :=
  conf [] (expand env t) v.

(** A fragment of the declarations of [aws-cdk-lib], used only to run the
    definitions on examples: the identity-provider props interfaces with
    the properties that [types.ts] names, and a client id.  Every other
    imported name is left opaque. *)
Definition sample_imports : imports := fun n =>
  if String.eqb n "cognito.UserPoolIdentityProviderGoogleProps" then
    TObj [ req "userPool" (TRef "cognito.IUserPool");
           req "clientId" TString;
           opt "clientSecret" TString;
           opt "clientSecretValue" (TRef "SecretValue") ]
  else if String.prefix "cognito.UserPoolIdentityProvider" n then
    TObj [ req "userPool" (TRef "cognito.IUserPool");
           req "clientId" TString ]
  else TRef n.

(** ** Declared properties *)

(** All property declarations of a type expression, nested ones
    included. *)
Fixpoint fields_in (t : ty) : list field :=
  match t with
  | TArray t' => fields_in t'
  | TObj fs =>
      flat_map (fun f => f :: match f with
                              | Field _ _ t' => fields_in t'
                              end) fs
  | TUnion a b | TInter a b => fields_in a ++ fields_in b
  | TOmit t' _ => fields_in t'
  | _ => []
  end.

(** The names of the properties declared without [?]. *)
Definition required_names (t : ty) : list string :=
  map fname (filter (fun f => negb (foptional f)) (fields_in t)).

(** The declared type of property [k] of an object type. *)
Definition field_type (k : string) (t : ty) : option (bool * ty) :=
  match t with
  | TObj fs =>
      match find (fun f => String.eqb (fname f) k) fs with
      | Some f => Some (foptional f, ftype f)
      | None => None
      end
  | _ => None
  end.

(** ** The two files as lists of statements *)

(** The statement forms that occur in the two files. *)
Inductive statement : Type :=
| ImportFrom (names : list string) (from : string)
| ExportType (name : string) (t : ty)
| ExportAllFrom (from : string).

Definition module : Type := list statement.

(** [src/packages/auth-construct/src/types.ts]. *)
Definition types_ts : module :=
  [ ImportFrom ["SecretValue"; "aws_cognito as cognito"] "aws-cdk-lib";
    ImportFrom ["triggerEvents"] "./trigger_events.js";
    ImportFrom ["BackendOutputStorageStrategy"] "@aws-amplify/plugin-types";
    ImportFrom ["AuthOutput"] "@aws-amplify/backend-output-schemas/auth";
    ImportFrom ["StandardAttributes"] "aws-cdk-lib/aws-cognito";
    ExportType "EmailLoginSettings" Types.EmailLoginSettings;
    ExportType "EmailLogin" Types.EmailLogin;
    ExportType "PhoneNumberLogin" Types.PhoneNumberLogin;
    ExportType "BasicLoginOptions" Types.BasicLoginOptions;
    ExportType "MFASettings" Types.MFASettings;
    ExportType "MFA" Types.MFA;
    ExportType "GoogleProviderProps" Types.GoogleProviderProps;
    ExportType "AppleProviderProps" Types.AppleProviderProps;
    ExportType "AmazonProviderProps" Types.AmazonProviderProps;
    ExportType "FacebookProviderProps" Types.FacebookProviderProps;
    ExportType "OidcProviderProps" Types.OidcProviderProps;
    ExportType "SamlProviderProps" Types.SamlProviderProps;
    ExportType "ExternalProviderOptions" Types.ExternalProviderOptions;
    ExportType "ExternalProviderProps" Types.ExternalProviderProps;
    ExportType "TriggerEvent" Types.TriggerEvent;
    ExportType "AuthProps" Types.AuthProps ].

(** [src/unnamed/part_000], lines 7 and 9. *)
Definition part_000 : module :=
  [ ExportAllFrom "./conversation/index.js";
    ExportAllFrom "./conversation/lambda/index.js" ].

(** The modules a file re-exports, the names it declares itself and the
    modules it imports from. *)
Definition reexports (m : module) : list string :=
  flat_map (fun s => match s with ExportAllFrom p => [p] | _ => [] end) m.

Definition declared (m : module) : list (string * ty) :=
  flat_map (fun s => match s with ExportType n t => [(n, t)] | _ => [] end) m.

Definition is_reexport (s : statement) : bool :=
  match s with ExportAllFrom _ => true | _ => false end.

(** The directory of a module path: everything up to the last [/]. *)
Fixpoint dirname (p : string) : string :=
  match p with
  | EmptyString => EmptyString
  | String c r =>
      if existsb (Ascii.eqb "/"%char) (list_ascii_of_string r)
      then String c (dirname r)
      else if Ascii.eqb c "/"%char then String c EmptyString else EmptyString
  end.

(** ** Reading the declarations *)

Import Types.

(** The declared properties of an object type. *)
Definition fields_of (t : ty) : list field :=
  match t with TObj fs => fs | _ => [] end.

(** The six provider props types, in the order of their declaration. *)
Definition provider_props : list ty :=
  [ GoogleProviderProps; AppleProviderProps; AmazonProviderProps;
    FacebookProviderProps; OidcProviderProps; SamlProviderProps ].

(** The properties of [ExternalProviderOptions] listed under
    [general configuration], lines 164-167. *)
Definition general_configuration : list string :=
  [ "scopes"; "callbackUrls"; "logoutUrls" ].

(** The per-provider properties of [ExternalProviderOptions]: all the
    others. *)
Definition provider_options : list field :=
  filter (fun f => negb (mem (fname f) general_configuration))
         (fields_of ExternalProviderOptions).

(** The shape of [BasicLoginOptions], lines 59-61, for any two setting
    types. *)
Definition login_shape (te tp : ty) : ty :=
  TUnion (TObj [ req "email" te; opt "phone" tp ])
         (TObj [ opt "email" te; req "phone" tp ]).

(** The property names of [AuthProps], lines 189-208. *)
Definition AuthProps_names : list string :=
  [ "loginWith"; "userAttributes"; "multifactor"; "accountRecovery";
    "outputStorageStrategy" ].

(** The three literals of [enforcementType], line 96. *)
Definition enforcement_modes : list string := ["OFF"; "OPTIONAL"; "REQUIRED"].

(** The shape of a value of [MFA] in plain words: an enforcement mode, a
    boolean [totp], an [sms] that is a boolean or an object holding
    exactly the template [smsMessage], and nothing else. *)
Definition mfa_shape (o : list (string * value)) : Prop :=
  (exists m, In m enforcement_modes
             /\ lookup "enforcementType" o = Some (VStr m))
  /\ (exists b, lookup "totp" o = Some (VBool b))
  /\ ((exists b, lookup "sms" o = Some (VBool b))
      \/ (exists s f, lookup "sms" o = Some (VObj s)
                      /\ lookup "smsMessage" s = Some (VFun f)
                      /\ forall k, In k (map fst s) -> k = "smsMessage"))
  /\ (forall k, In k (map fst o) -> In k ["enforcementType"; "totp"; "sms"]).

(** ** Sample configurations *)

Definition both_methods : list (string * value) :=
  [ ("email", VBool true); ("phone", VBool true) ].

Definition sample_email_settings : list (string * value) :=
  [ ("verificationEmailStyle", VStr "CODE");
    ("verificationEmailSubject", VStr "Welcome") ].

Definition sample_settings : list (string * value) :=
  [ ("totp", VBool true); ("sms", VBool false) ].

Definition sample_template : list (string * value) :=
  [ ("smsMessage", VFun (fun code => "Your code is " ++ code)) ].

Definition sample_mfa : list (string * value) :=
  [ ("enforcementType", VStr "OPTIONAL");
    ("totp", VBool true);
    ("sms", VObj sample_template) ].

Definition sample_google : list (string * value) :=
  [ ("clientId", VStr "id"); ("clientSecret", VRef "SecretValue") ].

Definition sample_login : list (string * value) :=
  [ ("loginWith", VObj [ ("email", VBool true) ]) ].

Definition sample_auth : value :=
  VObj [ ("loginWith",
          VObj [ ("email", VBool true);
                 ("externalProviders",
                  VObj [ ("google", VObj sample_google);
                         ("callbackUrls", VArr [ VStr "https://example.com" ]) ]) ]);
         ("multifactor", VObj sample_mfa) ].

(** ** Shapes in plain words *)

(** What an optional property may be: absent, [undefined], or a value
    satisfying [P]. *)
Definition optional_is (P : value -> Prop) (x : option value) : Prop :=
  x = None \/ x = Some VUndefined \/ exists v, x = Some v /\ P v.

Definition is_template (v : value) : Prop := exists f, v = VFun f.

Definition is_string (v : value) : Prop := exists s, v = VStr s.

Definition is_string_array (v : value) : Prop :=
  exists xs, v = VArr xs /\ Forall is_string xs.

(** The literal [o] has no property outside [ks]. *)
Definition only_keys (ks : list string) (o : list (string * value)) : Prop :=
  forall k, In k (map fst o) -> In k ks.

(** The five provider props types declared as [Omit<P, 'userPool'>], each
    with the name of the SDK props type [P] it is made from, lines
    117-152. *)
Definition omit_userPool_props : list (string * ty) :=
  [ ("cognito.UserPoolIdentityProviderAppleProps", AppleProviderProps);
    ("cognito.UserPoolIdentityProviderAmazonProps", AmazonProviderProps);
    ("cognito.UserPoolIdentityProviderFacebookProps", FacebookProviderProps);
    ("cognito.UserPoolIdentityProviderOidcProps", OidcProviderProps);
    ("cognito.UserPoolIdentityProviderSamlProps", SamlProviderProps) ].

(** The type of [loginWith], line 189. *)
Definition LoginWith : ty := TInter BasicLoginOptions ExternalProviderProps.

Definition sample_sdk_apple : list (string * value) :=
  [ ("userPool", VRef "cognito.IUserPool"); ("clientId", VStr "id") ].

Definition sample_providers : list (string * value) :=
  [ ("callbackUrls", VArr [ VStr "https://example.com" ]);
    ("logoutUrls", VArr []) ].

Definition sample_login_with : list (string * value) :=
  [ ("email", VBool true); ("externalProviders", VObj sample_providers) ].

Definition sample_template_phone : list (string * value) :=
  [ ("verificationMessage", VFun (fun code => "Code: " ++ code)) ].

(** [k] can be left out at [t]: every object type in [t] declares it with
    [?] or not at all. *)
Fixpoint droppable (k : string) (t : ty) : bool :=
  match t with
  | TObj fs => forallb (fun f => negb (String.eqb (fname f) k) || foptional f) fs
  | TUnion a b | TInter a b => droppable k a && droppable k b
  | _ => true
  end.

(** The property names of [ExternalProviderOptions], lines 158-167. *)
Definition ExternalProviderOptions_names : list string :=
  [ "google"; "facebook"; "loginWithAmazon"; "signInWithApple"; "oidc"; "saml";
    "scopes"; "callbackUrls"; "logoutUrls" ].

(** * Properties *)

(** ** Unfolding equations and list facts *)

Lemma forallb_pointwise {A} (p q : A -> bool) (l : list A) :
  (forall x, p x = q x) -> forallb p l = forallb q l.
Proof.
  intros H. induction l as [|x r IH]; cbn; [reflexivity|]. now rewrite H, IH.
Qed.

Lemma conf_obj al fs o :
  conf al (TObj fs) (VObj o)
  = forallb (field_ok o) fs && no_excess (map fname fs ++ al) o.
Proof.
  cbn [conf]. f_equal. apply forallb_pointwise. now intros [k b t].
Qed.

Lemma conf_union al a b v :
  conf al (TUnion a b) v = conf (al ++ keys b) a v || conf (al ++ keys a) b v.
Proof. reflexivity. Qed.

Lemma conf_inter al a b v :
  conf al (TInter a b) v = conf (al ++ keys b) a v && conf (al ++ keys a) b v.
Proof. reflexivity. Qed.

Lemma conf_obj_only al fs v :
  conf al (TObj fs) v = true -> exists o, v = VObj o.
Proof. destruct v; cbn; try discriminate. eauto. Qed.

Lemma mem_In k ks : mem k ks = true <-> In k ks.
Proof.
  unfold mem. rewrite existsb_exists. split.
  - intros [x [Hx He]]. apply String.eqb_eq in He. now subst.
  - intros H. exists k. split; [assumption | apply String.eqb_refl].
Qed.

Lemma lookup_remove_same k o : lookup k (remove_prop k o) = None.
Proof.
  unfold remove_prop.
  induction o as [|[k' v] r IH]; cbn; [reflexivity|].
  destruct (String.eqb k' k) eqn:E; cbn; [assumption|].
  now rewrite E.
Qed.

Lemma lookup_remove_other k k' o :
  String.eqb k' k = false -> lookup k' (remove_prop k o) = lookup k' o.
Proof.
  intros Hne. unfold remove_prop.
  induction o as [|[k1 v] r IH]; cbn; [reflexivity|].
  destruct (String.eqb k1 k) eqn:E; cbn.
  - apply String.eqb_eq in E. subst k1.
    rewrite String.eqb_sym, Hne. assumption.
  - now rewrite IH.
Qed.

Lemma no_excess_remove known k o :
  no_excess known o = true -> no_excess known (remove_prop k o) = true.
Proof.
  unfold no_excess, remove_prop. rewrite !forallb_forall.
  intros H p Hp. apply filter_In in Hp. now apply H.
Qed.

Lemma lookup_present k o v : lookup k o = Some v -> In k (map fst o).
Proof.
  induction o as [|[k' x] r IH]; cbn; [discriminate|].
  destruct (String.eqb k' k) eqn:E.
  - apply String.eqb_eq in E. now left.
  - intros H. right. now apply IH.
Qed.

Lemma present_lookup k o : In k (map fst o) -> exists v, lookup k o = Some v.
Proof.
  induction o as [|[k' x] r IH]; cbn; [contradiction|].
  intros [->|H].
  - rewrite String.eqb_refl. eauto.
  - destruct (String.eqb k' k); eauto.
Qed.

Lemma no_excess_spec known o :
  no_excess known o = true <-> (forall k, In k (map fst o) -> In k known).
Proof.
  unfold no_excess. rewrite forallb_forall. split.
  - intros H k Hk. apply in_map_iff in Hk. destruct Hk as [p [<- Hp]].
    apply mem_In. now apply H.
  - intros H p Hp. apply mem_In. apply H. now apply in_map.
Qed.

Lemma no_excess_absent known k o :
  no_excess known o = true -> mem k known = false -> lookup k o = None.
Proof.
  intros Hx Hk. destruct (lookup k o) eqn:E; [|reflexivity].
  apply lookup_present in E.
  apply (proj1 (no_excess_spec known o) Hx) in E.
  apply mem_In in E. congruence.
Qed.

(** Expansion keeps the names and the [?] modifiers of an object type. *)
Lemma expand_obj env fs :
  expand env (TObj fs) = TObj (map (expand_field env) fs).
Proof. cbn [expand]. f_equal. apply map_ext. now intros [k b t]. Qed.

(** ** Login methods *)

Ltac bools :=
  repeat match goal with
         | H : _ && _ = true |- _ => apply andb_true_iff in H; destruct H
         | H : _ || _ = true |- _ => apply orb_true_iff in H; destruct H
         | H : String.eqb _ _ = true |- _ => apply String.eqb_eq in H; subst
         | H : false = true |- _ => discriminate H
         end.

(** Unfold the check of [login_shape] down to the two lookups. *)
Ltac login_lookups :=
  unfold login_shape, supplied; rewrite !conf_union, !conf_obj;
  cbn [forallb map app keys]; unfold field_ok, req, opt, prop_ok;
  cbn [fname foptional ftype].

Section Login.
Variables te tp : ty.

Lemma login_at_least_one al o :
  conf al (login_shape te tp) (VObj o) = true ->
  supplied "email" o = true \/ supplied "phone" o = true.
Proof.
  login_lookups.
  destruct (lookup "email" o) as [[]|]; destruct (lookup "phone" o) as [[]|];
    cbn; auto.
Qed.

Lemma login_neither_rejected al o :
  supplied "email" o = false -> supplied "phone" o = false ->
  conf al (login_shape te tp) (VObj o) = false.
Proof.
  intros He Hp.
  destruct (conf al (login_shape te tp) (VObj o)) eqn:E; [|reflexivity].
  apply login_at_least_one in E. destruct E; congruence.
Qed.

Lemma login_no_excess al o :
  conf al (login_shape te tp) (VObj o) = true ->
  no_excess ("email" :: "phone" :: al ++ ["email"; "phone"]) o = true.
Proof. login_lookups. intros H. bools; assumption. Qed.

Lemma login_email_optional al o :
  conf al (login_shape te tp) (VObj o) = true -> supplied "phone" o = true ->
  conf al (login_shape te tp) (VObj (remove_prop "email" o)) = true.
Proof.
  intros H Hp. pose proof (login_no_excess al o H) as Hx.
  revert H Hp. login_lookups.
  rewrite lookup_remove_same, lookup_remove_other by reflexivity.
  rewrite (no_excess_remove _ _ _ Hx). intros H Hp.
  apply orb_true_iff. right.
  destruct (lookup "phone" o) as [[]|]; try discriminate Hp;
    bools; rewrite ?andb_true_r in *;
    repeat match goal with H : _ = true |- _ => rewrite H end;
    reflexivity.
Qed.

Lemma login_phone_optional al o :
  conf al (login_shape te tp) (VObj o) = true -> supplied "email" o = true ->
  conf al (login_shape te tp) (VObj (remove_prop "phone" o)) = true.
Proof.
  intros H He. pose proof (login_no_excess al o H) as Hx.
  revert H He. login_lookups.
  rewrite lookup_remove_same, lookup_remove_other by reflexivity.
  rewrite (no_excess_remove _ _ _ Hx). intros H He.
  apply orb_true_iff. left.
  destruct (lookup "email" o) as [[]|]; try discriminate He;
    bools; rewrite ?andb_true_r in *;
    repeat match goal with H : _ = true |- _ => rewrite H end;
    reflexivity.
Qed.

End Login.


(** ** Optional and required properties of an object type *)

Lemma field_ok_remove k o f :
  field_ok (remove_prop k o) f
  = if String.eqb (fname f) k then foptional f else field_ok o f.
Proof.
  unfold field_ok. destruct (String.eqb (fname f) k) eqn:E.
  - apply String.eqb_eq in E. subst k. now rewrite lookup_remove_same.
  - now rewrite lookup_remove_other.
Qed.

Lemma optional_may_be_absent al fs k o :
  (forall f, In f fs -> fname f = k -> foptional f = true) ->
  conf al (TObj fs) (VObj o) = true ->
  conf al (TObj fs) (VObj (remove_prop k o)) = true.
Proof.
  intros Hopt. rewrite !conf_obj, !andb_true_iff, !forallb_forall.
  intros [Hf Hx]. split; [|now apply no_excess_remove].
  intros f Hin. rewrite field_ok_remove.
  destruct (String.eqb (fname f) k) eqn:E; [|now apply Hf].
  apply String.eqb_eq in E. now apply Hopt.
Qed.

Lemma required_must_be_supplied al fs f o :
  In f fs -> foptional f = false -> supplied (fname f) o = false ->
  conf al (TObj fs) (VObj o) = false.
Proof.
  intros Hin Hreq Hsup. rewrite conf_obj.
  destruct (forallb (field_ok o) fs) eqn:E; [|reflexivity].
  rewrite forallb_forall in E. specialize (E f Hin).
  unfold field_ok, prop_ok, supplied in *. rewrite Hreq in E.
  destruct (lookup (fname f) o) as [[]|]; discriminate.
Qed.

Lemma in_expanded env fs f :
  In f fs -> In (expand_field env f) (map (expand_field env) fs).
Proof. apply in_map. Qed.

(** A property declared with [?] may be left out of an accepted literal,
    whatever the imported types are. *)
Lemma optional_absent_expanded env al fs k o :
  (forall f, In f fs -> fname f = k -> foptional f = true) ->
  conf al (expand env (TObj fs)) (VObj o) = true ->
  conf al (expand env (TObj fs)) (VObj (remove_prop k o)) = true.
Proof.
  intros Hopt. rewrite expand_obj. apply optional_may_be_absent.
  intros f Hin Hk. apply in_map_iff in Hin. destruct Hin as [g [<- Hg]].
  cbn in *. now apply Hopt.
Qed.

(** A property declared without [?] must be supplied. *)
Lemma required_supplied_expanded env al fs f o :
  In f fs -> foptional f = false -> supplied (fname f) o = false ->
  conf al (expand env (TObj fs)) (VObj o) = false.
Proof.
  intros Hin Hreq Hsup. rewrite expand_obj.
  apply (required_must_be_supplied al _ (expand_field env f));
    [now apply in_expanded | assumption | assumption].
Qed.

(** ** [Omit] *)

Lemma mem_app k xs ys : mem k (xs ++ ys) = mem k xs || mem k ys.
Proof. unfold mem. apply existsb_app. Qed.

Lemma omit_keys ks t k :
  mem k ks = true -> mem k (keys (omit ks t)) = false.
Proof.
  intros Hk. destruct t; try reflexivity. cbn.
  induction fs as [|f r IH]; [reflexivity|]. cbn.
  destruct (mem (fname f) ks) eqn:E; cbn; [assumption|].
  rewrite IH, orb_false_r.
  destruct (String.eqb k (fname f)) eqn:Ek; [|reflexivity].
  apply String.eqb_eq in Ek. congruence.
Qed.

Lemma keys_obj al t v :
  conf al t v = true -> forall o, v = VObj o -> no_excess (keys t ++ al) o = true.
Proof.
  revert al v. induction t; intros al v H o ->; cbn in H; try discriminate.
  - apply andb_true_iff in H. apply H.
  - apply no_excess_spec. intros k Hk. apply orb_true_iff in H.
    destruct H as [H|H];
      [apply IHt1 with (o := o) in H | apply IHt2 with (o := o) in H];
      try reflexivity;
      apply (proj1 (no_excess_spec _ _) H) in Hk; cbn;
      rewrite !in_app_iff in *; tauto.
  - apply andb_true_iff in H. destruct H as [H _].
    apply IHt1 with (o := o) in H; [|reflexivity].
    apply no_excess_spec. intros k Hk.
    apply (proj1 (no_excess_spec _ _) H) in Hk. cbn.
    rewrite !in_app_iff in *. tauto.
Qed.

(** A literal accepted at a type has no property that the type and its
    siblings do not know. *)
Lemma unknown_absent al t o k :
  conf al t (VObj o) = true -> mem k (keys t) = false -> mem k al = false ->
  lookup k o = None.
Proof.
  intros H Hk Hal. apply (no_excess_absent (keys t ++ al)).
  - now apply (keys_obj al t (VObj o)).
  - now rewrite mem_app, Hk, Hal.
Qed.

Lemma omit_only_objects al ks t v :
  conf al (omit ks t) v = true -> exists o, v = VObj o.
Proof.
  destruct t; cbn; try discriminate. apply conf_obj_only.
Qed.

(** ** [BasicLoginOptions] *)


Lemma expand_BasicLoginOptions env :
  expand env BasicLoginOptions
  = login_shape (expand env EmailLogin) (expand env PhoneNumberLogin).
Proof. reflexivity. Qed.

Lemma BasicLoginOptions_only_objects env v :
  accepts env BasicLoginOptions v = true -> exists o, v = VObj o.
Proof.
  unfold accepts. rewrite expand_BasicLoginOptions. unfold login_shape.
  rewrite conf_union. intros H. apply orb_true_iff in H.
  destruct H as [H|H]; now apply conf_obj_only in H.
Qed.

(** C2.  Every value accepted at [BasicLoginOptions] is an object that
    supplies [email] or [phone]: a value with neither is not a value of
    the type. *)
Theorem BasicLoginOptions_supplies_a_method env v :
  accepts env BasicLoginOptions v = true ->
  exists o, v = VObj o /\
            (supplied "email" o = true \/ supplied "phone" o = true).
Proof.
  intros H. destruct (BasicLoginOptions_only_objects env v H) as [o ->].
  exists o. split; [reflexivity|].
  unfold accepts in H. rewrite expand_BasicLoginOptions in H.
  now apply login_at_least_one in H.
Qed.

Lemma BasicLoginOptions_supplies_a_method_witness :
  accepts opaque_imports BasicLoginOptions (VObj [("email", VBool true)]) = true
  /\ exists o, VObj [("email", VBool true)] = VObj o /\
               (supplied "email" o = true \/ supplied "phone" o = true).
Proof.
  split; [reflexivity|].
  apply (BasicLoginOptions_supplies_a_method opaque_imports). reflexivity.
Defined.

(** C1, as the code has it.  [email] and [phone] are each optional on
    their own: from an accepted value that supplies the other one, either
    may be left out.  A value that supplies neither is rejected by the
    declared shape itself. *)
Theorem BasicLoginOptions_each_optional_not_both env o :
  (accepts env BasicLoginOptions (VObj o) = true ->
   supplied "phone" o = true ->
   accepts env BasicLoginOptions (VObj (remove_prop "email" o)) = true)
  /\ (accepts env BasicLoginOptions (VObj o) = true ->
      supplied "email" o = true ->
      accepts env BasicLoginOptions (VObj (remove_prop "phone" o)) = true)
  /\ (supplied "email" o = false -> supplied "phone" o = false ->
      accepts env BasicLoginOptions (VObj o) = false).
Proof.
  unfold accepts. rewrite expand_BasicLoginOptions.
  split; [apply login_email_optional|].
  split; [apply login_phone_optional | apply login_neither_rejected].
Qed.

Lemma BasicLoginOptions_each_optional_not_both_witness :
  accepts opaque_imports BasicLoginOptions
          (VObj (remove_prop "email" both_methods)) = true
  /\ accepts opaque_imports BasicLoginOptions
             (VObj (remove_prop "phone" both_methods)) = true
  /\ accepts opaque_imports BasicLoginOptions (VObj []) = false.
Proof.
  split; [|split].
  - apply (proj1 (BasicLoginOptions_each_optional_not_both
                    opaque_imports both_methods)); reflexivity.
  - apply (proj1 (proj2 (BasicLoginOptions_each_optional_not_both
                           opaque_imports both_methods))); reflexivity.
  - apply (proj2 (proj2 (BasicLoginOptions_each_optional_not_both
                           opaque_imports []))); reflexivity.
Defined.

(** C1, as the claim states it, fails: the configuration that supplies
    neither login method is rejected by [BasicLoginOptions], and so by
    [AuthProps]. *)
Lemma BasicLoginOptions_rejects_empty :
  accepts opaque_imports BasicLoginOptions (VObj []) = false
  /\ accepts opaque_imports AuthProps (VObj [("loginWith", VObj [])]) = false.
Proof. split; reflexivity. Qed.

(** ** Multi-factor authentication *)

(** What the [sms] property of [MFASettings] accepts: a boolean, or an
    object with exactly the property [smsMessage], a template. *)
Lemma sms_accepts v :
  conf [] (TUnion TBoolean (TObj [ req "smsMessage" TFun ])) v = true <->
  (exists b, v = VBool b)
  \/ (exists s f, v = VObj s /\ lookup "smsMessage" s = Some (VFun f)
                  /\ forall k, In k (map fst s) -> k = "smsMessage").
Proof.
  rewrite conf_union. split.
  - intros H. apply orb_true_iff in H. destruct H as [H|H].
    + destruct v; try discriminate. left. eauto.
    + destruct v; try discriminate. right. rewrite conf_obj in H.
      cbn in H. unfold field_ok, prop_ok in H. cbn in H.
      apply andb_true_iff in H. destruct H as [Hf Hx].
      rewrite andb_true_r in Hf.
      destruct (lookup "smsMessage" props) as [[]|] eqn:E; try discriminate.
      exists props, f. split; [reflexivity|]. split; [exact E|].
      intros k Hk. apply (proj1 (no_excess_spec _ _) Hx) in Hk.
      cbn in Hk. destruct Hk as [Hk|[]]. now symmetry.
  - intros [[b ->]|[s [f [-> [Hl Hk]]]]]; [reflexivity|].
    apply orb_true_iff. right. rewrite conf_obj. cbn.
    unfold field_ok, prop_ok. cbn. rewrite Hl. cbn.
    apply no_excess_spec. intros k Hin. left. symmetry. now apply Hk.
Qed.

Lemma enforcement_accepts v :
  conf [] (TUnion (TLit "OFF") (TUnion (TLit "OPTIONAL") (TLit "REQUIRED"))) v
  = true <-> exists m, In m enforcement_modes /\ v = VStr m.
Proof.
  cbn. split.
  - intros H. destruct v; try discriminate. exists s. split; [|reflexivity].
    bools; cbn; auto.
  - intros [m [Hm ->]]. cbn in Hm.
    destruct Hm as [<-|[<-|[<-|[]]]]; reflexivity.
Qed.

Lemma defined_prop chk x :
  prop_ok chk false x = true <-> exists v, x = Some v /\ chk v = true /\ v <> VUndefined.
Proof.
  unfold prop_ok. split.
  - destruct x as [[]|]; try discriminate; intros H; eexists;
      (split; [reflexivity|split; [assumption|discriminate]]).
  - intros [v [-> [H Hv]]]. destruct v; congruence.
Qed.

Lemma totp_accepts v : conf [] TBoolean v = true <-> exists b, v = VBool b.
Proof.
  split; [destruct v; try discriminate; eauto | now intros [b ->]].
Qed.

Lemma MFA_objects env o :
  accepts env MFA (VObj o) = true <-> mfa_shape o.
Proof.
  unfold accepts, mfa_shape.
  change (expand env MFA) with MFA. unfold MFA, MFASettings.
  rewrite conf_inter, !conf_obj. cbn [forallb map keys app fname req].
  unfold field_ok. cbn [fname ftype foptional req].
  rewrite !andb_true_iff, !defined_prop, !no_excess_spec.
  split.
  - intros [[[[x [Hx [Hm _]]] _] Hk] [[[y [Hy [Ht _]]] [[z [Hz [Hs _]]] _]] _]].
    apply enforcement_accepts in Hm. destruct Hm as [m [Hm ->]].
    apply totp_accepts in Ht. destruct Ht as [b ->].
    apply sms_accepts in Hs.
    split; [eauto|]. split; [eauto|]. split; [|exact Hk].
    destruct Hs as [[c ->]|[s [f [-> [H1 H2]]]]]; [left; eauto|].
    right. exists s, f. auto.
  - intros [[m [Hm Hx]] [[b Hy] [Hs Hk]]].
    assert (Hz : exists z, lookup "sms" o = Some z
                           /\ conf [] (TUnion TBoolean
                                         (TObj [req "smsMessage" TFun])) z = true
                           /\ z <> VUndefined).
    { destruct Hs as [[c Hc]|[s [f [Hc [H1 H2]]]]];
        (eexists; split; [exact Hc|]; split; [|discriminate]);
        apply sms_accepts; [left; eauto | right; exists s, f; auto]. }
    split; [split; [split; [|reflexivity] | exact Hk]
           | split; [split; [|split; [exact Hz | reflexivity]] |]].
    + exists (VStr m). split; [assumption|]. split; [|discriminate].
      apply enforcement_accepts. eauto.
    + exists (VBool b). split; [assumption|]. split; [reflexivity|discriminate].
    + intros k Hin. apply Hk in Hin. cbn in *. tauto.
Qed.

(** C4.  A value of [MFA] is an object with an enforcement mode that is
    one of [OFF], [OPTIONAL] and [REQUIRED], a boolean [totp] flag and an
    [sms] property that is a boolean or an object carrying the message
    template [smsMessage]; it has no other property. *)
Theorem MFA_accepts_declared_shape env v :
  accepts env MFA v = true <-> exists o, v = VObj o /\ mfa_shape o.
Proof.
  split.
  - intros H. assert (Ho : exists o, v = VObj o).
    { unfold accepts in H. change (expand env MFA) with MFA in H.
      unfold MFA in H. rewrite conf_inter in H.
      apply andb_true_iff in H. destruct H as [H _].
      now apply conf_obj_only in H. }
    destruct Ho as [o ->]. exists o. split; [reflexivity|].
    now apply MFA_objects in H.
  - intros [o [-> H]]. now apply MFA_objects.
Qed.

Lemma MFA_accepts_declared_shape_witness :
  accepts opaque_imports MFA (VObj sample_mfa) = true
  /\ exists o, VObj sample_mfa = VObj o /\ mfa_shape o.
Proof.
  split; [reflexivity|].
  apply (proj1 (MFA_accepts_declared_shape opaque_imports (VObj sample_mfa))). reflexivity.
Defined.

(** C9.  When the [sms] property of a value of [MFASettings] is a settings
    object, that object carries the template [smsMessage]. *)
Theorem MFASettings_sms_object_has_smsMessage env o s :
  accepts env MFASettings (VObj o) = true ->
  lookup "sms" o = Some (VObj s) ->
  exists f, lookup "smsMessage" s = Some (VFun f).
Proof.
  unfold accepts. change (expand env MFASettings) with MFASettings.
  unfold MFASettings. rewrite conf_obj. cbn [forallb].
  unfold field_ok. cbn [fname ftype foptional req].
  intros H Hs. rewrite Hs in H. cbn [prop_ok] in H.
  apply andb_true_iff in H. destruct H as [H _].
  apply andb_true_iff in H. destruct H as [_ H].
  apply andb_true_iff in H. destruct H as [H _].
  apply sms_accepts in H.
  destruct H as [[b Hb]|[s' [f [Hs' [Hf _]]]]]; [discriminate|].
  injection Hs' as <-. eauto.
Qed.

Lemma MFASettings_sms_object_has_smsMessage_witness :
  exists f, lookup "smsMessage" sample_template = Some (VFun f).
Proof.
  apply (MFASettings_sms_object_has_smsMessage opaque_imports
           (remove_prop "enforcementType" sample_mfa)); reflexivity.
Defined.

(** ** Email and phone settings *)

(** C6, as the code has it.  [EmailLogin] and [PhoneNumberLogin] accept
    the literal [true] and settings objects, and nothing else: the boolean
    [b] is accepted exactly when it is [true]. *)
Theorem login_setting_true_or_object env :
  (forall b, accepts env EmailLogin (VBool b) = b
             /\ accepts env PhoneNumberLogin (VBool b) = b)
  /\ (forall o, accepts env EmailLogin (VObj o)
                = accepts env EmailLoginSettings (VObj o)
                /\ accepts env PhoneNumberLogin (VObj o)
                   = accepts env (TObj [ opt "verificationMessage" TFun ])
                             (VObj o))
  /\ (forall v, accepts env EmailLogin v = true ->
                v = VBool true \/ exists o, v = VObj o)
  /\ (forall v, accepts env PhoneNumberLogin v = true ->
                v = VBool true \/ exists o, v = VObj o).
Proof.
  split; [intros []; split; reflexivity|].
  split; [split; reflexivity|].
  split; intros [] H; try discriminate H; eauto;
    destruct b; try discriminate H; auto.
Qed.

Lemma login_setting_true_or_object_witness :
  (VBool true = VBool true \/ exists o, VBool true = VObj o)
  /\ (VObj [] = VBool true \/ exists o, VObj [] = VObj o).
Proof.
  split.
  - apply (proj1 (proj2 (proj2 (login_setting_true_or_object opaque_imports)))).
    reflexivity.
  - apply (proj2 (proj2 (proj2 (login_setting_true_or_object opaque_imports)))).
    reflexivity.
Defined.

(** C6, as the claim states it, fails at [b = false]. *)
Lemma login_setting_rejects_false :
  accepts opaque_imports EmailLogin (VBool false) = false
  /\ accepts opaque_imports PhoneNumberLogin (VBool false) = false.
Proof. split; reflexivity. Qed.

(** ** Which properties are optional *)

(** C7, as the code has it.  A property declared with [?] is optional:
    leaving it out of an accepted value of the object shape gives an
    accepted value.  A property declared without [?] is required by the
    object shape that declares it; the table lists, for each declaration of
    the file that has any, the required properties in it. *)
Theorem question_mark_properties_are_optional :
  (forall env al fs k o,
      (forall f, In f fs -> fname f = k -> foptional f = true) ->
      conf al (expand env (TObj fs)) (VObj o) = true ->
      conf al (expand env (TObj fs)) (VObj (remove_prop k o)) = true)
  /\ (forall env al fs f o,
         In f fs -> foptional f = false -> supplied (fname f) o = false ->
         conf al (expand env (TObj fs)) (VObj o) = false)
  /\ filter (fun d => negb (Nat.eqb (List.length (snd d)) 0))
            (map (fun d => (fst d, required_names (snd d))) (declared types_ts))
     = [ ("BasicLoginOptions", ["email"; "phone"]);
         ("MFASettings", ["totp"; "sms"; "smsMessage"]);
         ("MFA", ["enforcementType"; "totp"; "sms"; "smsMessage"]);
         ("AuthProps", ["loginWith"; "email"; "phone"; "enforcementType";
                        "totp"; "sms"; "smsMessage"]) ].
Proof.
  split; [exact optional_absent_expanded|].
  split; [exact required_supplied_expanded | reflexivity].
Qed.

Lemma question_mark_properties_are_optional_witness :
  accepts opaque_imports EmailLoginSettings
          (VObj (remove_prop "verificationEmailSubject" sample_email_settings))
  = true
  /\ accepts opaque_imports MFASettings
             (VObj (remove_prop "totp" sample_settings)) = false.
Proof.
  split.
  - apply (proj1 question_mark_properties_are_optional opaque_imports []
             [ opt "verificationEmailStyle" (TUnion (TLit "CODE") (TLit "LINK"));
               opt "verificationEmailBody" TFun;
               opt "verificationEmailSubject" TString ]).
    + intros f [<-|[<-|[<-|[]]]]; reflexivity.
    + reflexivity.
  - apply (proj1 (proj2 question_mark_properties_are_optional) opaque_imports []
             [ req "totp" TBoolean;
               req "sms" (TUnion TBoolean (TObj [ req "smsMessage" TFun ])) ]
             (req "totp" TBoolean)).
    + left. reflexivity.
    + reflexivity.
    + reflexivity.
Defined.

(** C7, as the claim states it, fails: [totp] is declared without [?], and
    an accepted value of [MFASettings] is no longer accepted once [totp]
    is left out.  The same holds for [loginWith] in [AuthProps]. *)
Lemma totp_is_not_optional :
  accepts opaque_imports MFASettings (VObj sample_settings) = true
  /\ accepts opaque_imports MFASettings
             (VObj (remove_prop "totp" sample_settings)) = false
  /\ accepts opaque_imports AuthProps (VObj sample_login) = true
  /\ accepts opaque_imports AuthProps
             (VObj (remove_prop "loginWith" sample_login)) = false.
Proof. repeat split. Qed.

(** ** External providers *)

Lemma omit_userPool env n al k ks v :
  mem k ks = true -> mem k al = false ->
  conf al (expand env (TOmit (TRef n) ks)) v = true ->
  exists o, v = VObj o /\ lookup k o = None.
Proof.
  cbn [expand]. intros Hk Hal H.
  destruct (omit_only_objects _ _ _ _ H) as [o ->].
  exists o. split; [reflexivity|].
  apply (unknown_absent al _ o k H); [now apply omit_keys | assumption].
Qed.

Lemma Google_accepts env v :
  accepts env GoogleProviderProps v = true ->
  exists o, v = VObj o
            /\ lookup "userPool" o = None
            /\ lookup "clientSecretValue" o = None
            /\ prop_ok (conf [] (env "SecretValue")) true
                       (lookup "clientSecret" o) = true.
Proof.
  unfold accepts, GoogleProviderProps. cbn [expand].
  rewrite conf_inter. intros H. apply andb_true_iff in H.
  destruct H as [HA HB].
  destruct (omit_only_objects _ _ _ _ HA) as [o ->]. exists o.
  split; [reflexivity|].
  split; [|split].
  - apply (unknown_absent _ _ o "userPool" HA); [now apply omit_keys|].
    reflexivity.
  - apply (unknown_absent _ _ o "clientSecretValue" HA);
      [now apply omit_keys | reflexivity].
  - cbn [map] in HB. rewrite conf_obj in HB. cbn [forallb] in HB.
    unfold field_ok in HB. cbn [fname ftype foptional opt] in HB.
    apply andb_true_iff in HB. destruct HB as [HB _].
    now rewrite andb_true_r in HB.
Qed.

(** C10.  Whatever the underlying SDK props types are, none of the six
    provider props types knows a [userPool] property, and no value
    accepted at one of them has one.  [GoogleProviderProps] drops the
    SDK's [clientSecretValue] and [clientSecret] and declares, in their
    place, a single optional [clientSecret] of type [SecretValue]. *)
Theorem provider_props_omit_userPool env :
  (forall P, In P provider_props ->
             mem "userPool" (keys (expand env P)) = false
             /\ forall v, accepts env P v = true ->
                          exists o, v = VObj o /\ lookup "userPool" o = None)
  /\ mem "clientSecretValue" (keys (expand env GoogleProviderProps)) = false
  /\ count_occ string_dec (keys (expand env GoogleProviderProps)) "clientSecret"
     = 1
  /\ fields_in GoogleProviderProps = [ opt "clientSecret" (TRef "SecretValue") ]
  /\ forall v, accepts env GoogleProviderProps v = true ->
               exists o, v = VObj o
                         /\ lookup "clientSecretValue" o = None
                         /\ prop_ok (conf [] (env "SecretValue")) true
                                    (lookup "clientSecret" o) = true.
Proof.
  split; [|split; [|split; [|split]]].
  - intros P HP. cbn in HP.
    destruct HP as [<-|[<-|[<-|[<-|[<-|[<-|[]]]]]]].
    + split.
      * cbn [GoogleProviderProps expand keys map fname opt].
        rewrite mem_app, omit_keys by reflexivity. reflexivity.
      * intros v H. apply Google_accepts in H.
        destruct H as [o [-> [H _]]]. eauto.
    + split; [now apply omit_keys | intro v; now apply omit_userPool].
    + split; [now apply omit_keys | intro v; now apply omit_userPool].
    + split; [now apply omit_keys | intro v; now apply omit_userPool].
    + split; [now apply omit_keys | intro v; now apply omit_userPool].
    + split; [now apply omit_keys | intro v; now apply omit_userPool].
  - cbn [GoogleProviderProps expand keys map fname opt].
    rewrite mem_app, omit_keys by reflexivity. reflexivity.
  - cbn [GoogleProviderProps expand keys map fname opt].
    rewrite count_occ_app.
    assert (H : mem "clientSecret"
                    (keys (omit ["userPool"; "clientSecretValue"; "clientSecret"]
                             (env "cognito.UserPoolIdentityProviderGoogleProps")))
                = false) by now apply omit_keys.
    assert (Hc : count_occ string_dec
                   (keys (omit ["userPool"; "clientSecretValue"; "clientSecret"]
                            (env "cognito.UserPoolIdentityProviderGoogleProps")))
                   "clientSecret" = 0).
    { apply count_occ_not_In. intros Hin. apply mem_In in Hin. congruence. }
    rewrite Hc. cbn. destruct (string_dec "clientSecret" "clientSecret");
      [reflexivity | congruence].
  - reflexivity.
  - intros v H. apply Google_accepts in H.
    destruct H as [o [-> [_ [H1 H2]]]]. eauto.
Qed.

Lemma provider_props_omit_userPool_witness :
  (exists o, VObj [("clientId", VStr "id")] = VObj o
             /\ lookup "userPool" o = None)
  /\ (exists o, VObj sample_google = VObj o
                /\ lookup "clientSecretValue" o = None
                /\ prop_ok (conf [] (sample_imports "SecretValue")) true
                           (lookup "clientSecret" o) = true).
Proof.
  split.
  - apply (proj1 (provider_props_omit_userPool sample_imports)
             AppleProviderProps).
    + right. left. reflexivity.
    + reflexivity.
  - apply (proj2 (proj2 (proj2 (proj2
             (provider_props_omit_userPool sample_imports))))).
    reflexivity.
Defined.

(** ** [ExternalProviderOptions] *)

(** C5, as the code has it.  [ExternalProviderOptions] has an optional
    bundle for each of six providers, typed by the six provider props
    types, followed by the optional lists [scopes], [callbackUrls] and
    [logoutUrls]; it has no required property. *)
Theorem ExternalProviderOptions_six_providers :
  provider_options
  = [ opt "google" GoogleProviderProps;
      opt "facebook" FacebookProviderProps;
      opt "loginWithAmazon" AmazonProviderProps;
      opt "signInWithApple" AppleProviderProps;
      opt "oidc" OidcProviderProps;
      opt "saml" SamlProviderProps ]
  /\ fields_of ExternalProviderOptions
     = (provider_options
        ++ [ opt "scopes" (TArray (TRef "cognito.OAuthScope"));
             opt "callbackUrls" (TArray TString);
             opt "logoutUrls" (TArray TString) ])%list
  /\ (forall P, In P provider_props <-> In P (map ftype provider_options))
  /\ forall env, accepts env ExternalProviderOptions (VObj []) = true.
Proof.
  split; [reflexivity|]. split; [reflexivity|].
  split; [|reflexivity].
  intros P. cbn. tauto.
Qed.

(** C5, as the claim states it, fails: the providers are six, not five. *)
Lemma ExternalProviderOptions_not_five_providers :
  List.length provider_options = 6
  /\ Nat.eqb (List.length provider_options) 5 = false.
Proof. split; reflexivity. Qed.

(** ** [AuthProps] *)

(** C3.  [AuthProps] declares the login configuration (the basic login
    options together with the external providers), the user attributes,
    the multi-factor configuration, the account recovery policy and the
    output storage strategy, and an accepted value has no other
    property. *)
Theorem AuthProps_aggregates :
  keys AuthProps = AuthProps_names
  /\ field_type "loginWith" AuthProps
     = Some (false, TInter BasicLoginOptions ExternalProviderProps)
  /\ field_type "userAttributes" AuthProps
     = Some (true, TRef "StandardAttributes")
  /\ field_type "multifactor" AuthProps = Some (true, MFA)
  /\ field_type "accountRecovery" AuthProps
     = Some (true, TRef "cognito.AccountRecovery")
  /\ field_type "outputStorageStrategy" AuthProps
     = Some (true, TRef "BackendOutputStorageStrategy<AuthOutput>")
  /\ forall env v,
       accepts env AuthProps v = true ->
       exists o, v = VObj o
                 /\ forall k, In k (map fst o) -> In k AuthProps_names.
Proof.
  repeat (split; [reflexivity|]).
  intros env v H. unfold accepts, AuthProps in H. rewrite expand_obj in H.
  destruct (conf_obj_only _ _ _ H) as [o ->]. exists o.
  split; [reflexivity|]. rewrite conf_obj in H.
  apply andb_true_iff in H. destruct H as [_ H].
  rewrite no_excess_spec in H. intros k Hk. apply H in Hk.
  cbn in Hk. cbn. tauto.
Qed.

Lemma AuthProps_aggregates_witness :
  exists o, sample_auth = VObj o
            /\ forall k, In k (map fst o) -> In k AuthProps_names.
Proof.
  apply (proj2 (proj2 (proj2 (proj2 (proj2 (proj2 AuthProps_aggregates)))))
           sample_imports).
  reflexivity.
Defined.

(** ** The re-exporting file *)

(** C8.  The second file consists of two statements, both re-exports: of
    the conversation module and of its [lambda] submodule.  It declares
    nothing and imports nothing. *)
Theorem part_000_only_reexports :
  forallb is_reexport part_000 = true
  /\ reexports part_000
     = [ "./conversation/index.js"; "./conversation/lambda/index.js" ]
  /\ List.length part_000 = List.length (reexports part_000)
  /\ declared part_000 = []
  /\ map dirname (reexports part_000)
     = [ "./conversation/"; "./conversation/lambda/" ].
Proof. repeat split. Qed.

(** By contrast [types.ts] is a file of declarations: it imports from five
    modules, declares sixteen types and re-exports nothing. *)
Lemma types_ts_only_declares :
  forallb is_reexport types_ts = false
  /\ reexports types_ts = []
  /\ List.length (declared types_ts) = 16.
Proof. repeat split. Qed.

(** * Further properties of the declared shapes *)

(** ** Optional properties in plain words *)

Lemma prop_ok_optional chk (P : value -> Prop) x :
  (forall v, v <> VUndefined -> (chk v = true <-> P v)) ->
  prop_ok chk true x = true <-> optional_is P x.
Proof.
  intros H. unfold prop_ok, optional_is. split.
  - destruct x as [v|]; [|auto].
    destruct v; auto; intros Hc; right; right; eexists;
      (split; [reflexivity|]); apply H; (discriminate || assumption).
  - intros [->|[->|[v [-> Hv]]]]; try reflexivity.
    destruct v; try reflexivity; apply H; (discriminate || assumption).
Qed.

Lemma prop_ok_required chk x :
  prop_ok chk false x = prop_ok chk true x
                        && match x with
                           | None | Some VUndefined => false
                           | Some _ => true
                           end.
Proof.
  unfold prop_ok. destruct x as [[]|]; now rewrite ?andb_true_r.
Qed.

Lemma template_accepts v : conf [] TFun v = true <-> is_template v.
Proof.
  unfold is_template. split.
  - destruct v; try discriminate. eauto.
  - now intros [f ->].
Qed.

Lemma string_accepts v : conf [] TString v = true <-> is_string v.
Proof.
  unfold is_string. split.
  - destruct v; try discriminate. eauto.
  - now intros [s ->].
Qed.

Lemma style_accepts v :
  conf [] (TUnion (TLit "CODE") (TLit "LINK")) v = true
  <-> v = VStr "CODE" \/ v = VStr "LINK".
Proof.
  cbn. split.
  - destruct v; try discriminate. intros H. bools; auto.
  - intros [->| ->]; reflexivity.
Qed.

(** ** [EmailLoginSettings] and [PhoneNumberLogin] *)

(** The settings object of email login: an optional style that is [CODE]
    or [LINK], an optional body template, an optional subject string, and
    no other property. *)
Theorem EmailLoginSettings_shape env v :
  accepts env EmailLoginSettings v = true <->
  exists o, v = VObj o
            /\ optional_is (fun x => x = VStr "CODE" \/ x = VStr "LINK")
                           (lookup "verificationEmailStyle" o)
            /\ optional_is is_template (lookup "verificationEmailBody" o)
            /\ optional_is is_string (lookup "verificationEmailSubject" o)
            /\ only_keys [ "verificationEmailStyle"; "verificationEmailBody";
                           "verificationEmailSubject" ] o.
Proof.
  unfold accepts. change (expand env EmailLoginSettings) with EmailLoginSettings.
  unfold EmailLoginSettings, only_keys. split.
  - intros H. destruct (conf_obj_only _ _ _ H) as [o ->]. exists o.
    split; [reflexivity|]. rewrite conf_obj in H. cbn [forallb map] in H.
    unfold field_ok in H. cbn [fname ftype foptional opt] in H.
    rewrite !andb_true_iff, no_excess_spec in H.
    destruct H as [[Hs [Hb [Hj _]]] Hk].
    rewrite (prop_ok_optional _ _ _ (fun v _ => style_accepts v)) in Hs.
    rewrite (prop_ok_optional _ _ _ (fun v _ => template_accepts v)) in Hb.
    rewrite (prop_ok_optional _ _ _ (fun v _ => string_accepts v)) in Hj.
    repeat (split; [assumption|]). intros k Hin. apply Hk in Hin.
    cbn in *. tauto.
  - intros [o [-> [Hs [Hb [Hj Hk]]]]]. rewrite conf_obj. cbn [forallb map].
    unfold field_ok. cbn [fname ftype foptional opt].
    rewrite !andb_true_iff, no_excess_spec.
    rewrite (prop_ok_optional _ _ _ (fun v _ => style_accepts v)).
    rewrite (prop_ok_optional _ _ _ (fun v _ => template_accepts v)).
    rewrite (prop_ok_optional _ _ _ (fun v _ => string_accepts v)).
    split; [repeat (split; [assumption|]); reflexivity|].
    intros k Hin. apply Hk in Hin. cbn in *. tauto.
Qed.

Lemma EmailLoginSettings_shape_witness :
  exists o, VObj sample_email_settings = VObj o
            /\ optional_is (fun x => x = VStr "CODE" \/ x = VStr "LINK")
                           (lookup "verificationEmailStyle" o)
            /\ optional_is is_template (lookup "verificationEmailBody" o)
            /\ optional_is is_string (lookup "verificationEmailSubject" o)
            /\ only_keys [ "verificationEmailStyle"; "verificationEmailBody";
                           "verificationEmailSubject" ] o.
Proof.
  apply (proj1 (EmailLoginSettings_shape opaque_imports
                  (VObj sample_email_settings))).
  reflexivity.
Defined.

(** Phone login is [true] or an object whose only property is the
    optional template [verificationMessage]. *)
Theorem PhoneNumberLogin_shape env v :
  accepts env PhoneNumberLogin v = true <->
  v = VBool true
  \/ exists o, v = VObj o
               /\ optional_is is_template (lookup "verificationMessage" o)
               /\ only_keys [ "verificationMessage" ] o.
Proof.
  unfold accepts. change (expand env PhoneNumberLogin) with PhoneNumberLogin.
  unfold PhoneNumberLogin, only_keys. rewrite conf_union. cbn [keys app map].
  split.
  - intros H. apply orb_true_iff in H. destruct H as [H|H].
    + destruct v; try discriminate. destruct b; [auto | discriminate].
    + right. destruct (conf_obj_only _ _ _ H) as [o ->]. exists o.
      split; [reflexivity|]. rewrite conf_obj in H. cbn [forallb map] in H.
      unfold field_ok in H. cbn [fname ftype foptional opt] in H.
      rewrite !andb_true_iff, no_excess_spec in H.
      destruct H as [[Hm _] Hk].
      rewrite (prop_ok_optional _ _ _ (fun v _ => template_accepts v)) in Hm.
      split; [assumption|]. intros k Hin. apply Hk in Hin. cbn in *. tauto.
  - intros [->|[o [-> [Hm Hk]]]]; [reflexivity|].
    apply orb_true_iff. right. rewrite conf_obj. cbn [forallb map].
    unfold field_ok. cbn [fname ftype foptional opt].
    rewrite !andb_true_iff, no_excess_spec.
    rewrite (prop_ok_optional _ _ _ (fun v _ => template_accepts v)).
    split; [split; [assumption | reflexivity]|].
    intros k Hin. apply Hk in Hin. cbn in *. tauto.
Qed.

Lemma PhoneNumberLogin_shape_witness :
  VObj sample_template_phone = VBool true
  \/ exists o, VObj sample_template_phone = VObj o
               /\ optional_is is_template (lookup "verificationMessage" o)
               /\ only_keys [ "verificationMessage" ] o.
Proof.
  apply (proj1 (PhoneNumberLogin_shape opaque_imports
                  (VObj sample_template_phone))).
  reflexivity.
Defined.

(** ** [BasicLoginOptions], both alternatives at once *)

Lemma login_shape_equation te tp al o :
  conf al (login_shape te tp) (VObj o)
  = prop_ok (conf [] te) true (lookup "email" o)
    && prop_ok (conf [] tp) true (lookup "phone" o)
    && (supplied "email" o || supplied "phone" o)
    && no_excess ("email" :: "phone" :: al ++ ["email"; "phone"]) o.
Proof.
  login_lookups.
  destruct (no_excess ("email" :: "phone" :: al ++ ["email"; "phone"]) o);
    rewrite ?andb_true_r, ?andb_false_r; [|reflexivity].
  destruct (lookup "email" o) as [[]|]; destruct (lookup "phone" o) as [[]|];
    cbn; rewrite ?andb_true_r, ?andb_false_r, ?orb_true_r, ?orb_false_r,
           ?orb_diag; reflexivity.
Qed.

(** A value of [BasicLoginOptions] is an object in which [email], where
    given, is a value of [EmailLogin], [phone], where given, is a value of
    [PhoneNumberLogin], at least one of the two is given, and there is no
    other property. *)
Theorem BasicLoginOptions_shape env o :
  accepts env BasicLoginOptions (VObj o) = true <->
  prop_ok (accepts env EmailLogin) true (lookup "email" o) = true
  /\ prop_ok (accepts env PhoneNumberLogin) true (lookup "phone" o) = true
  /\ (supplied "email" o = true \/ supplied "phone" o = true)
  /\ only_keys [ "email"; "phone" ] o.
Proof.
  unfold accepts at 1. rewrite expand_BasicLoginOptions, login_shape_equation.
  rewrite !andb_true_iff, orb_true_iff, no_excess_spec. unfold only_keys.
  split.
  - intros [[[He Hp] Hs] Hk]. repeat (split; [assumption|]).
    intros k Hin. apply Hk in Hin. cbn in *. tauto.
  - intros [He [Hp [Hs Hk]]]. repeat split; try assumption.
    intros k Hin. apply Hk in Hin. cbn in *. tauto.
Qed.

Lemma BasicLoginOptions_shape_witness :
  prop_ok (accepts opaque_imports EmailLogin) true
          (lookup "email" both_methods) = true
  /\ prop_ok (accepts opaque_imports PhoneNumberLogin) true
             (lookup "phone" both_methods) = true
  /\ (supplied "email" both_methods = true
      \/ supplied "phone" both_methods = true)
  /\ only_keys [ "email"; "phone" ] both_methods.
Proof.
  apply (proj1 (BasicLoginOptions_shape opaque_imports both_methods)).
  reflexivity.
Defined.

(** ** [MFA] as an intersection *)

Lemma no_excess_cons k known o :
  no_excess known (remove_prop k o) = true -> no_excess (k :: known) o = true.
Proof.
  rewrite !no_excess_spec. intros H k' Hin.
  destruct (String.eqb k' k) eqn:E.
  - apply String.eqb_eq in E. now left.
  - right. apply H. apply present_lookup in Hin. destruct Hin as [v Hv].
    rewrite <- (lookup_remove_other k k' o E) in Hv.
    now apply lookup_present in Hv.
Qed.

(** A value of [MFA] is a value of [MFASettings] to which an enforcement
    mode has been added, and the other way round. *)
Theorem MFA_is_mode_and_settings env o :
  accepts env MFA (VObj o) = true <->
  (exists m, In m enforcement_modes
             /\ lookup "enforcementType" o = Some (VStr m))
  /\ accepts env MFASettings (VObj (remove_prop "enforcementType" o)) = true.
Proof.
  unfold accepts.
  change (expand env MFA) with MFA.
  change (expand env MFASettings) with MFASettings.
  unfold MFA, MFASettings.
  rewrite conf_inter, !conf_obj. cbn [forallb map keys app fname req].
  rewrite !field_ok_remove. cbn [fname req String.eqb Ascii.eqb Bool.eqb].
  unfold field_ok at 1. cbn [fname ftype foptional req].
  rewrite !andb_true_iff, defined_prop. split.
  - intros [[[[x [Hx [Hm _]]] _] Hk] [Hf _]].
    apply enforcement_accepts in Hm. destruct Hm as [m [Hm ->]].
    split; [eauto|]. split; [assumption|].
    apply no_excess_spec. intros k Hin.
    assert (Hl : exists v, lookup k (remove_prop "enforcementType" o) = Some v)
      by now apply present_lookup.
    destruct Hl as [v Hv].
    destruct (String.eqb k "enforcementType") eqn:E.
    + apply String.eqb_eq in E. subst k.
      rewrite lookup_remove_same in Hv. discriminate.
    + rewrite lookup_remove_other in Hv by assumption.
      apply lookup_present in Hv.
      apply (proj1 (no_excess_spec _ _) Hk) in Hv.
      cbn in Hv. apply String.eqb_neq in E. cbn. intuition congruence.
  - intros [[m [Hm Hx]] [Hf Hk]].
    apply no_excess_cons in Hk.
    split; [split; [split; [|reflexivity]|] | split].
    + exists (VStr m). split; [assumption|]. split; [|discriminate].
      apply enforcement_accepts. eauto.
    + assumption.
    + assumption.
    + apply no_excess_spec. intros k Hin.
      apply (proj1 (no_excess_spec _ _) Hk) in Hin. cbn in *. tauto.
Qed.

Lemma MFA_is_mode_and_settings_witness :
  (exists m, In m enforcement_modes
             /\ lookup "enforcementType" sample_mfa = Some (VStr m))
  /\ accepts opaque_imports MFASettings
             (VObj (remove_prop "enforcementType" sample_mfa)) = true.
Proof.
  apply (proj1 (MFA_is_mode_and_settings opaque_imports sample_mfa)).
  reflexivity.
Defined.

(** ** Leaving a property out of a union or an intersection *)

Lemma droppable_sound k t :
  droppable k t = true ->
  forall al o, conf al t (VObj o) = true ->
               conf al t (VObj (remove_prop k o)) = true.
Proof.
  induction t; intros Hd al o H; try discriminate H.
  - apply optional_may_be_absent; [|assumption].
    intros f Hin Hk. cbn in Hd. rewrite forallb_forall in Hd.
    specialize (Hd f Hin). subst k. now rewrite String.eqb_refl in Hd.
  - cbn in Hd. apply andb_true_iff in Hd. destruct Hd as [Ha Hb].
    rewrite conf_union in *. apply orb_true_iff in H. apply orb_true_iff.
    destruct H as [H|H]; [left; now apply IHt1 | right; now apply IHt2].
  - cbn in Hd. apply andb_true_iff in Hd. destruct Hd as [Ha Hb].
    rewrite conf_inter in *. apply andb_true_iff in H. apply andb_true_iff.
    destruct H as [H1 H2]. split; [now apply IHt1 | now apply IHt2].
Qed.

(** ** [loginWith] *)

Lemma expand_LoginWith env :
  expand env LoginWith
  = TInter (login_shape (expand env EmailLogin) (expand env PhoneNumberLogin))
           (TObj [ opt "externalProviders"
                       (expand env ExternalProviderOptions) ]).
Proof. reflexivity. Qed.

Lemma LoginWith_only_objects env v :
  accepts env LoginWith v = true -> exists l, v = VObj l.
Proof.
  unfold accepts. rewrite expand_LoginWith, conf_inter. intros H.
  apply andb_true_iff in H. destruct H as [_ H].
  now apply conf_obj_only in H.
Qed.

Lemma LoginWith_objects env l :
  accepts env LoginWith (VObj l) = true <->
  prop_ok (accepts env EmailLogin) true (lookup "email" l) = true
  /\ prop_ok (accepts env PhoneNumberLogin) true (lookup "phone" l) = true
  /\ (supplied "email" l = true \/ supplied "phone" l = true)
  /\ prop_ok (accepts env ExternalProviderOptions) true
             (lookup "externalProviders" l) = true
  /\ only_keys [ "email"; "phone"; "externalProviders" ] l.
Proof.
  unfold accepts at 1.
  rewrite expand_LoginWith, conf_inter, login_shape_equation, conf_obj.
  unfold login_shape. cbn [forallb map keys app fname opt req].
  unfold field_ok. cbn [fname ftype foptional opt].
  rewrite !andb_true_iff, orb_true_iff, !no_excess_spec. split.
  - intros [[[[He Hp] Hs] Hk] [[Hx _] _]].
    repeat (split; [assumption|]).
    intros k Hin. apply Hk in Hin. cbn in *. tauto.
  - intros [He [Hp [Hs [Hx Hk]]]].
    split; [split; [split; [split|]|] | split; [split; [|reflexivity]|]];
      try assumption;
      intros k Hin; apply Hk in Hin; cbn in *; tauto.
Qed.

(** A value of [loginWith] is an object that gives [email] or [phone],
    each a value of its setting type where given, optionally
    [externalProviders], and nothing else. *)
Theorem LoginWith_shape env v :
  accepts env LoginWith v = true <->
  exists l, v = VObj l
            /\ prop_ok (accepts env EmailLogin) true (lookup "email" l) = true
            /\ prop_ok (accepts env PhoneNumberLogin) true (lookup "phone" l)
               = true
            /\ (supplied "email" l = true \/ supplied "phone" l = true)
            /\ prop_ok (accepts env ExternalProviderOptions) true
                       (lookup "externalProviders" l) = true
            /\ only_keys [ "email"; "phone"; "externalProviders" ] l.
Proof.
  split.
  - intros H. destruct (LoginWith_only_objects env v H) as [l ->].
    exists l. split; [reflexivity|]. now apply LoginWith_objects.
  - intros [l [-> H]]. now apply LoginWith_objects.
Qed.

Lemma LoginWith_shape_witness :
  exists l, VObj sample_login_with = VObj l
            /\ prop_ok (accepts sample_imports EmailLogin) true
                       (lookup "email" l) = true
            /\ prop_ok (accepts sample_imports PhoneNumberLogin) true
                       (lookup "phone" l) = true
            /\ (supplied "email" l = true \/ supplied "phone" l = true)
            /\ prop_ok (accepts sample_imports ExternalProviderOptions) true
                       (lookup "externalProviders" l) = true
            /\ only_keys [ "email"; "phone"; "externalProviders" ] l.
Proof.
  apply (proj1 (LoginWith_shape sample_imports (VObj sample_login_with))).
  reflexivity.
Defined.

(** [externalProviders] is optional in [loginWith]: it can be left out of
    any accepted value. *)
Theorem LoginWith_externalProviders_optional env l :
  accepts env LoginWith (VObj l) = true ->
  accepts env LoginWith (VObj (remove_prop "externalProviders" l)) = true.
Proof.
  unfold accepts. apply droppable_sound. reflexivity.
Qed.

Lemma LoginWith_externalProviders_optional_witness :
  accepts sample_imports LoginWith
          (VObj (remove_prop "externalProviders" sample_login_with)) = true.
Proof.
  apply (LoginWith_externalProviders_optional sample_imports sample_login_with).
  reflexivity.
Defined.

(** ** [AuthProps], through its properties *)

Lemma expand_AuthProps env :
  expand env AuthProps
  = TObj [ req "loginWith" (expand env LoginWith);
           opt "userAttributes" (env "StandardAttributes");
           opt "multifactor" MFA;
           opt "accountRecovery" (env "cognito.AccountRecovery");
           opt "outputStorageStrategy"
               (env "BackendOutputStorageStrategy<AuthOutput>") ].
Proof. reflexivity. Qed.

(** Every value of [AuthProps] has a [loginWith] object that gives [email]
    or [phone]: no configuration without a login method is accepted. *)
Theorem AuthProps_requires_login_method env v :
  accepts env AuthProps v = true ->
  exists o l, v = VObj o
              /\ lookup "loginWith" o = Some (VObj l)
              /\ (supplied "email" l = true \/ supplied "phone" l = true).
Proof.
  unfold accepts. rewrite expand_AuthProps. intros H.
  destruct (conf_obj_only _ _ _ H) as [o ->]. rewrite conf_obj in H.
  cbn [forallb] in H. apply andb_true_iff in H. destruct H as [H _].
  apply andb_true_iff in H. destruct H as [H _].
  unfold field_ok in H. cbn [fname ftype foptional req] in H.
  apply defined_prop in H. destruct H as [x [Hx [Hl _]]].
  destruct (LoginWith_only_objects env x Hl) as [l ->].
  apply LoginWith_objects in Hl. destruct Hl as [_ [_ [Hs _]]]. eauto.
Qed.

Lemma AuthProps_requires_login_method_witness :
  exists o l, sample_auth = VObj o
              /\ lookup "loginWith" o = Some (VObj l)
              /\ (supplied "email" l = true \/ supplied "phone" l = true).
Proof.
  apply (AuthProps_requires_login_method sample_imports). reflexivity.
Defined.

(** Where a value of [AuthProps] gives [multifactor], it is a value of
    [MFA]: a mode, [totp] and [sms] all present. *)
Theorem AuthProps_multifactor_is_MFA env o x :
  accepts env AuthProps (VObj o) = true ->
  lookup "multifactor" o = Some x -> x <> VUndefined ->
  exists m, x = VObj m /\ mfa_shape m.
Proof.
  unfold accepts. rewrite expand_AuthProps, conf_obj. cbn [forallb].
  unfold field_ok. cbn [fname ftype foptional req opt].
  intros H Hx Hu. rewrite Hx in H. bools.
  assert (Hm : conf [] MFA x = true) by (destruct x; try assumption; congruence).
  assert (Ho : exists m, x = VObj m).
  { unfold MFA in Hm. rewrite conf_inter in Hm. bools.
    eapply conf_obj_only; eassumption. }
  destruct Ho as [m ->]. exists m. split; [reflexivity|].
  now apply (MFA_objects env).
Qed.

Lemma AuthProps_multifactor_is_MFA_witness :
  exists m, VObj sample_mfa = VObj m /\ mfa_shape m.
Proof.
  apply (AuthProps_multifactor_is_MFA sample_imports
           [ ("loginWith", VObj both_methods); ("multifactor", VObj sample_mfa) ]);
    [reflexivity | reflexivity | discriminate].
Defined.

(** ** The general configuration of [ExternalProviderOptions] *)

Lemma expand_ExternalProviderOptions env :
  expand env ExternalProviderOptions
  = TObj [ opt "google" (expand env GoogleProviderProps);
           opt "facebook" (expand env FacebookProviderProps);
           opt "loginWithAmazon" (expand env AmazonProviderProps);
           opt "signInWithApple" (expand env AppleProviderProps);
           opt "oidc" (expand env OidcProviderProps);
           opt "saml" (expand env SamlProviderProps);
           opt "scopes" (TArray (env "cognito.OAuthScope"));
           opt "callbackUrls" (TArray TString);
           opt "logoutUrls" (TArray TString) ].
Proof. reflexivity. Qed.

Lemma string_array_accepts v :
  conf [] (TArray TString) v = true <-> is_string_array v.
Proof.
  unfold is_string_array. split.
  - destruct v; try discriminate. cbn [conf]. intros H. exists xs.
    split; [reflexivity|]. rewrite forallb_forall in H.
    apply Forall_forall. intros x Hx. apply string_accepts. now apply H.
  - intros [xs [-> H]]. cbn [conf]. apply forallb_forall. intros x Hx.
    apply string_accepts. rewrite Forall_forall in H. now apply H.
Qed.

(** In a value of [ExternalProviderOptions] the redirect lists
    [callbackUrls] and [logoutUrls], where given, are arrays of strings,
    [scopes], where given, is an array of [OAuthScope] values, and every
    property is one of the nine declared. *)
Theorem ExternalProviderOptions_general_configuration env v :
  accepts env ExternalProviderOptions v = true ->
  exists o, v = VObj o
            /\ optional_is is_string_array (lookup "callbackUrls" o)
            /\ optional_is is_string_array (lookup "logoutUrls" o)
            /\ optional_is
                 (fun x => exists xs,
                      x = VArr xs
                      /\ Forall (fun s => accepts env (TRef "cognito.OAuthScope") s
                                          = true) xs)
                 (lookup "scopes" o)
            /\ only_keys ExternalProviderOptions_names o.
Proof.
  unfold accepts at 1. rewrite expand_ExternalProviderOptions. intros H.
  destruct (conf_obj_only _ _ _ H) as [o ->]. exists o.
  split; [reflexivity|]. rewrite conf_obj in H. cbn [forallb map] in H.
  unfold field_ok in H. cbn [fname ftype foptional opt] in H.
  rewrite !andb_true_iff, no_excess_spec in H.
  destruct H as [[_ [_ [_ [_ [_ [_ [Hs [Hc [Hl _]]]]]]]]] Hk].
  rewrite (prop_ok_optional _ _ _ (fun v _ => string_array_accepts v)) in Hc.
  rewrite (prop_ok_optional _ _ _ (fun v _ => string_array_accepts v)) in Hl.
  split; [assumption|]. split; [assumption|]. split.
  - revert Hs. apply prop_ok_optional. intros x _. unfold accepts. cbn [expand].
    split.
    + destruct x; try discriminate. cbn [conf]. intros Hx. exists xs.
      split; [reflexivity|]. apply Forall_forall. now apply forallb_forall.
    + intros [xs [-> Hx]]. cbn [conf]. apply forallb_forall.
      now apply Forall_forall.
  - intros k Hin. apply Hk in Hin. cbn in Hin. unfold
      ExternalProviderOptions_names. cbn. tauto.
Qed.

Lemma ExternalProviderOptions_general_configuration_witness :
  exists o, VObj sample_providers = VObj o
            /\ optional_is is_string_array (lookup "callbackUrls" o)
            /\ optional_is is_string_array (lookup "logoutUrls" o)
            /\ optional_is
                 (fun x => exists xs,
                      x = VArr xs
                      /\ Forall (fun s => accepts sample_imports
                                            (TRef "cognito.OAuthScope") s
                                          = true) xs)
                 (lookup "scopes" o)
            /\ only_keys ExternalProviderOptions_names o.
Proof.
  apply (ExternalProviderOptions_general_configuration sample_imports).
  reflexivity.
Defined.

(** ** Provider props and the SDK props they are made from *)

Lemma conf_undefined al t : conf al t VUndefined = false.
Proof.
  revert al. induction t; intros al; try reflexivity.
  - cbn. now rewrite IHt1, IHt2.
  - cbn. now rewrite IHt1.
Qed.

Lemma remove_prop_keys k k' o :
  In k' (map fst (remove_prop k o)) ->
  String.eqb k' k = false /\ In k' (map fst o).
Proof.
  intros H. apply in_map_iff in H. destruct H as [p [<- Hp]].
  apply filter_In in Hp. destruct Hp as [Hp Hn]. split.
  - now apply negb_true_iff in Hn.
  - now apply in_map.
Qed.

Lemma omit_one_filter k (fs : list field) f :
  In f (filter (fun f => negb (mem (fname f) [k])) fs)
  <-> In f fs /\ String.eqb (fname f) k = false.
Proof.
  rewrite filter_In. unfold mem. cbn [existsb].
  rewrite orb_false_r, negb_true_iff. reflexivity.
Qed.

(** A literal accepted at an object type is, without its property [k],
    accepted at the type with [k] omitted. *)
Lemma omit_one_forget al k fs o :
  conf al (TObj fs) (VObj o) = true ->
  conf al (omit [k] (TObj fs)) (VObj (remove_prop k o)) = true.
Proof.
  cbn [omit]. rewrite !conf_obj, !andb_true_iff, !forallb_forall.
  intros [Hf Hx]. split.
  - intros f Hin. apply omit_one_filter in Hin. destruct Hin as [Hin Hk].
    rewrite field_ok_remove, Hk. now apply Hf.
  - apply no_excess_spec. intros k' Hin. apply remove_prop_keys in Hin.
    destruct Hin as [Hk Hin]. apply (proj1 (no_excess_spec _ _) Hx) in Hin.
    apply in_app_iff in Hin. apply in_app_iff.
    destruct Hin as [Hin|Hin]; [left | now right].
    apply in_map_iff in Hin. destruct Hin as [f [<- Hf']].
    apply in_map. now apply omit_one_filter.
Qed.

(** A literal accepted at the type with [k] omitted is, with a value for
    [k] that the type accepts there, accepted at the type itself. *)
Lemma omit_one_restore al k fs o u :
  mem k (map fname fs) = true ->
  (forall f, In f fs -> fname f = k -> conf [] (ftype f) u = true) ->
  conf al (omit [k] (TObj fs)) (VObj o) = true ->
  conf al (TObj fs) (VObj ((k, u) :: o)) = true.
Proof.
  intros Hk Hu. cbn [omit].
  rewrite !conf_obj, !andb_true_iff, !forallb_forall.
  intros [Hf Hx]. split.
  - intros f Hin. unfold field_ok. cbn [lookup].
    destruct (String.eqb k (fname f)) eqn:E.
    + apply String.eqb_eq in E. specialize (Hu f Hin (eq_sym E)).
      unfold prop_ok. destruct u; try assumption.
      now rewrite conf_undefined in Hu.
    + apply Hf. apply omit_one_filter. split; [assumption|].
      now rewrite String.eqb_sym.
  - apply no_excess_spec. intros k' Hin. cbn [map fst] in Hin.
    apply in_app_iff. destruct Hin as [<-|Hin].
    + left. now apply mem_In.
    + apply (proj1 (no_excess_spec _ _) Hx) in Hin.
      apply in_app_iff in Hin. destruct Hin as [Hin|Hin]; [left | now right].
      apply in_map_iff in Hin. destruct Hin as [f [<- Hf']].
      apply in_map. now apply omit_one_filter in Hf'.
Qed.

Lemma omit_userPool_props_form n P :
  In (n, P) omit_userPool_props -> P = TOmit (TRef n) [ "userPool" ].
Proof.
  cbn. intros [H|[H|[H|[H|[H|[]]]]]]; injection H as <- <-; reflexivity.
Qed.

(** Apple, Amazon, Facebook, OIDC and SAML: a literal accepted at the SDK
    props type is, without its [userPool], accepted at the provider props
    type. *)
Theorem provider_props_from_sdk_props env n P fs o :
  In (n, P) omit_userPool_props -> env n = TObj fs ->
  accepts env (TRef n) (VObj o) = true ->
  accepts env P (VObj (remove_prop "userPool" o)) = true.
Proof.
  intros HP Hn. rewrite (omit_userPool_props_form n P HP).
  unfold accepts. cbn [expand]. rewrite Hn. apply omit_one_forget.
Qed.

Lemma provider_props_from_sdk_props_witness :
  accepts sample_imports AppleProviderProps
          (VObj (remove_prop "userPool" sample_sdk_apple)) = true.
Proof.
  apply (provider_props_from_sdk_props sample_imports
           "cognito.UserPoolIdentityProviderAppleProps" AppleProviderProps
           [ req "userPool" (TRef "cognito.IUserPool"); req "clientId" TString ]);
    [left; reflexivity | reflexivity | reflexivity].
Defined.

(** The other way round: a literal accepted at one of these provider props
    types becomes a literal of the SDK props type once a [userPool] of the
    type the SDK declares is put in front. *)
Theorem sdk_props_from_provider_props env n P fs o u :
  In (n, P) omit_userPool_props -> env n = TObj fs ->
  mem "userPool" (map fname fs) = true ->
  (forall f, In f fs -> fname f = "userPool" -> conf [] (ftype f) u = true) ->
  accepts env P (VObj o) = true ->
  accepts env (TRef n) (VObj (("userPool", u) :: o)) = true.
Proof.
  intros HP Hn Hk Hu. rewrite (omit_userPool_props_form n P HP).
  unfold accepts. cbn [expand]. rewrite Hn. now apply omit_one_restore.
Qed.

Lemma sdk_props_from_provider_props_witness :
  accepts sample_imports (TRef "cognito.UserPoolIdentityProviderAppleProps")
          (VObj (("userPool", VRef "cognito.IUserPool")
                   :: [ ("clientId", VStr "id") ])) = true.
Proof.
  apply (sdk_props_from_provider_props sample_imports
           "cognito.UserPoolIdentityProviderAppleProps" AppleProviderProps
           [ req "userPool" (TRef "cognito.IUserPool"); req "clientId" TString ]).
  - left. reflexivity.
  - reflexivity.
  - reflexivity.
  - intros f [<-|[<-|[]]] Hf; [reflexivity | discriminate Hf].
  - reflexivity.
Defined.

(** [Omit] leaves the other properties as they are: what the SDK props
    type requires, apart from [userPool], the provider props type
    requires too. *)
Theorem provider_props_keep_required env n P fs f o :
  In (n, P) omit_userPool_props -> env n = TObj fs ->
  In f fs -> String.eqb (fname f) "userPool" = false ->
  foptional f = false -> supplied (fname f) o = false ->
  accepts env P (VObj o) = false.
Proof.
  intros HP Hn Hin Hk Hreq Hsup. rewrite (omit_userPool_props_form n P HP).
  unfold accepts. cbn [expand]. rewrite Hn. cbn [omit].
  apply (required_must_be_supplied _ _ f); try assumption.
  now apply omit_one_filter.
Qed.

Lemma provider_props_keep_required_witness :
  accepts sample_imports AppleProviderProps (VObj []) = false.
Proof.
  apply (provider_props_keep_required sample_imports
           "cognito.UserPoolIdentityProviderAppleProps" AppleProviderProps
           [ req "userPool" (TRef "cognito.IUserPool"); req "clientId" TString ]
           (req "clientId" TString));
    [left; reflexivity | reflexivity | right; left; reflexivity
     | reflexivity | reflexivity | reflexivity].
Defined.

(** ** The client secret of [GoogleProviderProps] *)

Lemma droppable_omit k ks t :
  mem k ks = true -> droppable k (omit ks t) = true.
Proof.
  intros Hk. destruct t; try reflexivity. cbn [omit droppable].
  apply forallb_forall. intros f Hin. apply filter_In in Hin.
  destruct Hin as [_ Hf]. apply negb_true_iff in Hf.
  destruct (String.eqb (fname f) k) eqn:E; [|reflexivity].
  apply String.eqb_eq in E. congruence.
Qed.

(** [clientSecret] is optional in [GoogleProviderProps], whatever the SDK
    props type says about its own client secret: it can be left out of
    any accepted value. *)
Theorem Google_clientSecret_optional env o :
  accepts env GoogleProviderProps (VObj o) = true ->
  accepts env GoogleProviderProps (VObj (remove_prop "clientSecret" o)) = true.
Proof.
  unfold accepts. apply droppable_sound.
  cbn [GoogleProviderProps expand droppable map forallb].
  rewrite droppable_omit by reflexivity. reflexivity.
Qed.

Lemma Google_clientSecret_optional_witness :
  accepts sample_imports GoogleProviderProps
          (VObj (remove_prop "clientSecret" sample_google)) = true.
Proof.
  apply (Google_clientSecret_optional sample_imports sample_google).
  reflexivity.
Defined.
